(** * Printer aggregate of web/app/models.py: command queue and print/alert state

    A shallow embedding of the [Printer] and [PrinterCommand] models.

    - A model instance is a record; [self] is threaded through a state and
      error monad together with the world the methods act on.
    - The world holds the two database tables, the log of the write
      statements issued against them, the telemetry store read by
      [Printer.status], and the clock read by [datetime.now].
    - The columns [created_at] and [updated_at] are maintained by the
      framework and read by none of the methods; they are left out. *)

From Stdlib Require Import ZArith String Ascii List Lia DecimalString.
From stdpp Require Import base option list gmap strings.

Open Scope Z_scope.

(* ===================================================================== *)
(** ** [json.dumps] on the values the models serialise                   *)
(* ===================================================================== *)

Module Json.

(** A Python [str] is read as its sequence of code points, each below
    256; a [dict] keeps its insertion order. *)
#[warnings="-register-all"] Inductive t : Type :=
| Null
| Bool (b : bool)
| Int (z : Z)
| Str (s : string)
| Obj (fields : list (string * t)).

Definition quote_char : ascii := ascii_of_nat 34.
Definition backslash_char : ascii := ascii_of_nat 92.

Definition lit (c : ascii) : string := String c EmptyString.
Definition escaped (c : ascii) : string := String backslash_char (lit c).

Definition hex_digit (n : nat) : ascii :=
  nth n (list_ascii_of_string "0123456789abcdef") "0"%char.

(** [ESCAPE_ASCII]: the quote, the backslash and everything outside
    [' ' .. '~'] is replaced; [ESCAPE_DCT] gives the short forms and
    ['\\u{0:04x}'] covers the rest. *)
Definition escape_char (c : ascii) : string :=
  let n := nat_of_ascii c in
  if (n =? 34)%nat then escaped quote_char
  else if (n =? 92)%nat then escaped backslash_char
  else if (n =? 8)%nat then escaped "b"
  else if (n =? 12)%nat then escaped "f"
  else if (n =? 10)%nat then escaped "n"
  else if (n =? 13)%nat then escaped "r"
  else if (n =? 9)%nat then escaped "t"
  else if ((32 <=? n) && (n <=? 126))%nat then lit c
  else String backslash_char
         (String "u" (String "0" (String "0"
            (String (hex_digit (n / 16)) (lit (hex_digit (n mod 16))))))).

Definition encode_string (s : string) : string :=
  String quote_char
    (String.concat "" (map escape_char (list_ascii_of_string s))
     +:+ lit quote_char).

(** Default separators: [', '] between items and [': '] after a key. *)
Fixpoint dumps (j : t) : string :=
  match j with
  | Null => "null"
  | Bool true => "true"
  | Bool false => "false"
  | Int z => NilZero.string_of_int (Z.to_int z)
  | Str s => encode_string s
  | Obj fields =>
      "{" +:+ String.concat ", "
                (map (fun kv => encode_string (fst kv) +:+ ": " +:+ dumps (snd kv))
                     fields)
          +:+ "}"
  end.

End Json.

(* ===================================================================== *)
(** ** The model records                                                 *)
(* ===================================================================== *)

(** Timestamps are instants on the UTC time line. *)
Definition datetime : Type := Z.

Module PrinterCommand.

Inductive status_t : Type := PENDING | SENT | ABORTED.

#[global] Instance status_eq_dec : EqDecision status_t.
Proof. solve_decision. Defined.

Record t : Type := Build {
  id : Z;
  printer : Z;            (* foreign key: the printer's id *)
  command : string;
  status : status_t
}.

Definition with_status (s : status_t) (c : t) : t :=
  {| id := id c; printer := printer c; command := command c; status := s |}.

End PrinterCommand.

Module Printer.

Inductive action_t : Type := CANCEL | PAUSE | NONE.

Record t : Type := Build {
  id : Z;
  name : string;
  auth_token : string;
  user : Z;               (* foreign key: the owner's id *)
  current_print_filename : option string;
  current_print_started_at : option datetime;
  current_print_alerted_at : option datetime;
  alert_acknowledged_at : option datetime;
  action_on_failure : action_t;
  tools_off_on_pause : bool;
  bed_off_on_pause : bool
}.

Definition with_current_print_filename (v : option string) (p : t) : t :=
  {| id := id p; name := name p; auth_token := auth_token p; user := user p;
     current_print_filename := v;
     current_print_started_at := current_print_started_at p;
     current_print_alerted_at := current_print_alerted_at p;
     alert_acknowledged_at := alert_acknowledged_at p;
     action_on_failure := action_on_failure p;
     tools_off_on_pause := tools_off_on_pause p;
     bed_off_on_pause := bed_off_on_pause p |}.

Definition with_current_print_started_at (v : option datetime) (p : t) : t :=
  {| id := id p; name := name p; auth_token := auth_token p; user := user p;
     current_print_filename := current_print_filename p;
     current_print_started_at := v;
     current_print_alerted_at := current_print_alerted_at p;
     alert_acknowledged_at := alert_acknowledged_at p;
     action_on_failure := action_on_failure p;
     tools_off_on_pause := tools_off_on_pause p;
     bed_off_on_pause := bed_off_on_pause p |}.

Definition with_current_print_alerted_at (v : option datetime) (p : t) : t :=
  {| id := id p; name := name p; auth_token := auth_token p; user := user p;
     current_print_filename := current_print_filename p;
     current_print_started_at := current_print_started_at p;
     current_print_alerted_at := v;
     alert_acknowledged_at := alert_acknowledged_at p;
     action_on_failure := action_on_failure p;
     tools_off_on_pause := tools_off_on_pause p;
     bed_off_on_pause := bed_off_on_pause p |}.

Definition with_alert_acknowledged_at (v : option datetime) (p : t) : t :=
  {| id := id p; name := name p; auth_token := auth_token p; user := user p;
     current_print_filename := current_print_filename p;
     current_print_started_at := current_print_started_at p;
     current_print_alerted_at := current_print_alerted_at p;
     alert_acknowledged_at := v;
     action_on_failure := action_on_failure p;
     tools_off_on_pause := tools_off_on_pause p;
     bed_off_on_pause := bed_off_on_pause p |}.

End Printer.

(* ===================================================================== *)
(** ** The world the methods run in                                       *)
(* ===================================================================== *)

(** A stored telemetry field: the producer writes text, and
    [Printer.status] replaces ["seconds_left"] by an [int]. *)
Inductive value : Type :=
| VStr (s : string)
| VInt (n : Z).

(** The write statements the object manager sends to the database. *)
Inductive db_op : Type :=
| Save (row : Printer.t)
| UpdateStatus (printer : Z) (old new : PrinterCommand.status_t)
| Insert (row : PrinterCommand.t).

Record World : Type := BuildWorld {
  printer_rows : gmap Z Printer.t;
  command_rows : list PrinterCommand.t;       (* in creation order *)
  next_command_id : Z;
  db_log : list db_op;                        (* oldest first *)
  status_store : gmap Z (gmap string value);
  clock : nat -> datetime;                    (* the n-th reading *)
  ticks : nat                                 (* readings taken so far *)
}.

Record State : Type := BuildState {
  self : Printer.t;
  world : World
}.

Inductive exn : Type := ValueError.

Definition M (A : Type) : Type := State -> exn + (A * State).

#[global] Instance M_ret : MRet M := fun A a st => inr (a, st).

#[global] Instance M_bind : MBind M := fun A B f m st =>
  match m st with
  | inl e => inl e
  | inr (a, st') => f a st'
  end.

Definition raise {A : Type} (e : exn) : M A := fun _ => inl e.

Definition get_self : M Printer.t := fun st => inr (self st, st).

(** An attribute assignment [self.x = v]. *)
Definition set_self (f : Printer.t -> Printer.t) : M unit := fun st =>
  inr (tt, {| self := f (self st); world := world st |}).

Definition get_world : M World := fun st => inr (world st, st).

Definition put_world (w : World) : M unit := fun st =>
  inr (tt, {| self := self st; world := w |}).

(** [datetime.now(timezone.utc)] *)
Definition datetime_now : M datetime :=
  w ← get_world;
  put_world {| printer_rows := printer_rows w; command_rows := command_rows w;
               next_command_id := next_command_id w; db_log := db_log w;
               status_store := status_store w; clock := clock w;
               ticks := S (ticks w) |} ;;
  mret (clock w (ticks w)).

(** [self.save()]: the row of [self.id] takes the instance's fields. *)
Definition save : M unit :=
  p ← get_self;
  w ← get_world;
  put_world {| printer_rows := <[Printer.id p := p]> (printer_rows w);
               command_rows := command_rows w;
               next_command_id := next_command_id w;
               db_log := db_log w ++ [Save p];
               status_store := status_store w; clock := clock w;
               ticks := ticks w |}.

(** [PrinterCommand.objects.filter(printer=.., status=old).update(status=new)] *)
Definition update_row (pid : Z) (old new : PrinterCommand.status_t)
    (c : PrinterCommand.t) : PrinterCommand.t :=
  if decide (PrinterCommand.printer c = pid /\ PrinterCommand.status c = old)
  then PrinterCommand.with_status new c
  else c.

Definition objects_filter_update (pid : Z) (old new : PrinterCommand.status_t)
    : M unit :=
  w ← get_world;
  put_world {| printer_rows := printer_rows w;
               command_rows := map (update_row pid old new) (command_rows w);
               next_command_id := next_command_id w;
               db_log := db_log w ++ [UpdateStatus pid old new];
               status_store := status_store w; clock := clock w;
               ticks := ticks w |}.

(** [PrinterCommand.objects.create(printer=.., command=.., status=..)] *)
Definition objects_create (pid : Z) (cmd : string) (s : PrinterCommand.status_t)
    : M unit :=
  w ← get_world;
  let row := {| PrinterCommand.id := next_command_id w;
                PrinterCommand.printer := pid;
                PrinterCommand.command := cmd;
                PrinterCommand.status := s |} in
  put_world {| printer_rows := printer_rows w;
               command_rows := command_rows w ++ [row];
               next_command_id := next_command_id w + 1;
               db_log := db_log w ++ [Insert row];
               status_store := status_store w; clock := clock w;
               ticks := ticks w |}.

(* ===================================================================== *)
(** ** The telemetry helpers of [lib]                                    *)
(* ===================================================================== *)

(** Modelled from the spec: [lib.redis.printer_status_get] is not part of
    the sources at hand.  The store is keyed by device id and holds a flat
    mapping of telemetry fields per device; a device with no snapshot reads
    as the mapping with no field, which is what lets [Printer.status] test
    it for ["seconds_left"]. *)
Definition printer_status_get (pid : Z) : M (gmap string value) :=
  w ← get_world;
  mret (default ∅ (status_store w !! pid)).

(** Modelled from the spec: [lib.utils.dict_or_none] is not part of the
    sources at hand.  A mapping with no field is the distinguished absent
    result [None]; any other mapping is returned as it is. *)
Definition dict_or_none (d : gmap string value) : option (gmap string value) :=
  if decide (d = ∅) then None else Some d.

(* ===================================================================== *)
(** ** The methods of [Printer]                                          *)
(* ===================================================================== *)

Section Methods.

(** The built-in [int] on a [str]; [None] stands for its [ValueError]. *)
Variable int_of_str : string -> option Z.

Definition int (v : value) : M Z :=
  match v with
  | VInt n => mret n
  | VStr s => match int_of_str s with
              | Some n => mret n
              | None => raise ValueError
              end
  end.

(** The property [Printer.status]. *)
Definition status : M (option (gmap string value)) :=
  p ← get_self;
  status_data ← printer_status_get (Printer.id p);
  status_data ← match status_data !! "seconds_left" with
                | Some v =>
                    n ← int v;
                    mret (<["seconds_left" := VInt n]> status_data)
                | None => mret status_data
                end;
  mret (dict_or_none status_data).

(** [queue_octoprint_command(self, command, args={}, abort_existing=True)];
    the call sites below pass the defaults explicitly. *)
Definition queue_octoprint_command (command : string)
    (args : list (string * Json.t)) (abort_existing : bool) : M unit :=
  p ← get_self;
  (if abort_existing
   then objects_filter_update (Printer.id p)
          PrinterCommand.PENDING PrinterCommand.ABORTED
   else mret tt) ;;
  objects_create (Printer.id p)
    (Json.dumps (Json.Obj [("cmd", Json.Str command); ("args", Json.Obj args)]))
    PrinterCommand.PENDING.

Definition set_current_print (filename : option string) : M unit :=
  p ← get_self;
  if decide (filename <> Printer.current_print_filename p) then
    set_self (Printer.with_current_print_filename filename) ;;
    now ← datetime_now;
    set_self (Printer.with_current_print_started_at (Some now)) ;;
    set_self (Printer.with_current_print_alerted_at None) ;;
    set_self (Printer.with_alert_acknowledged_at None) ;;
    save
  else mret tt.

Definition unset_current_print : M unit :=
  p ← get_self;
  if decide (Printer.current_print_filename p <> None) then
    set_self (Printer.with_current_print_filename None) ;;
    set_self (Printer.with_current_print_started_at None) ;;
    set_self (Printer.with_current_print_alerted_at None) ;;
    set_self (Printer.with_alert_acknowledged_at None) ;;
    save
  else mret tt.

Definition set_alert : M unit :=
  now ← datetime_now;
  set_self (Printer.with_current_print_alerted_at (Some now)) ;;
  set_self (Printer.with_alert_acknowledged_at None) ;;
  save.

Definition clear_alert : M unit :=
  set_self (Printer.with_current_print_alerted_at None) ;;
  now ← datetime_now;
  set_self (Printer.with_alert_acknowledged_at (Some now)) ;;
  save.

Definition resume_print (mute_alert : bool) : M unit :=
  now ← datetime_now;
  set_self (Printer.with_alert_acknowledged_at (Some now)) ;;
  save ;;
  (if negb mute_alert then clear_alert else mret tt) ;;
  queue_octoprint_command "restore_temps" [] true ;;
  queue_octoprint_command "resume" [] false.

Definition pause_print : M unit :=
  queue_octoprint_command "pause" [] true.

Definition tools_args : list (string * Json.t) :=
  [("heater", Json.Str "tools"); ("target", Json.Int 0); ("save", Json.Bool true)].

Definition bed_args : list (string * Json.t) :=
  [("heater", Json.Str "bed"); ("target", Json.Int 0); ("save", Json.Bool true)].

Definition pause_print_on_failure : M unit :=
  queue_octoprint_command "pause" [] true ;;
  p ← get_self;
  (if Printer.tools_off_on_pause p
   then queue_octoprint_command "set_temps" tools_args false
   else mret tt) ;;
  p ← get_self;
  (if Printer.bed_off_on_pause p
   then queue_octoprint_command "set_temps" bed_args false
   else mret tt).

Definition cancel_print : M unit :=
  now ← datetime_now;
  set_self (Printer.with_alert_acknowledged_at (Some now)) ;;
  save ;;
  queue_octoprint_command "cancel" [] true.

End Methods.

(* ===================================================================== *)
(** ** Vocabulary of the statements                                      *)
(* ===================================================================== *)

(** The text stored in the [command] column for a command name and its
    arguments. *)
Definition payload (command : string) (args : list (string * Json.t)) : string :=
  Json.dumps (Json.Obj [("cmd", Json.Str command); ("args", Json.Obj args)]).

(** A PENDING row with id [i] for printer [pid]. *)
Definition pending_row (i pid : Z) (cmd : string) : PrinterCommand.t :=
  {| PrinterCommand.id := i;
     PrinterCommand.printer := pid;
     PrinterCommand.command := cmd;
     PrinterCommand.status := PrinterCommand.PENDING |}.

(** The row [objects.create] inserts for printer [pid] in world [w]. *)
Definition created_row (w : World) (pid : Z) (cmd : string) : PrinterCommand.t :=
  pending_row (next_command_id w) pid cmd.

Definition is_pending_of (pid : Z) (c : PrinterCommand.t) : Prop :=
  PrinterCommand.printer c = pid /\ PrinterCommand.status c = PrinterCommand.PENDING.

#[global] Instance is_pending_of_dec pid c : Decision (is_pending_of pid c).
Proof. unfold is_pending_of. apply _. Defined.

(** The PENDING commands of a printer, in creation order. *)
Definition pending_of (pid : Z) (rows : list PrinterCommand.t)
    : list PrinterCommand.t :=
  filter (is_pending_of pid) rows.

(** What the bulk abort does to one row. *)
Definition abort_row (pid : Z) : PrinterCommand.t -> PrinterCommand.t :=
  update_row pid PrinterCommand.PENDING PrinterCommand.ABORTED.

(** Every row present before is still there, at its place and unchanged. *)
Definition rows_kept (rows rows' : list PrinterCommand.t) : Prop :=
  forall (i : nat) (c : PrinterCommand.t), rows !! i = Some c -> rows' !! i = Some c.


(** The unmuted [resume_print] as the specification words it: both commands
    are stacked on a table that is otherwise left as it was. *)
Definition resume_print_stacks_both (st : State) : Prop :=
  exists st' : State,
    resume_print false st = inr (tt, st') /\
    Printer.alert_acknowledged_at (self st') <> None /\
    Printer.current_print_alerted_at (self st') = None /\
    command_rows (world st')
    = command_rows (world st)
      ++ [pending_row (next_command_id (world st)) (Printer.id (self st))
            (payload "restore_temps" []);
          pending_row (next_command_id (world st) + 1) (Printer.id (self st))
            (payload "resume" [])].

(** The public operations that change a printer. *)
Inductive op : Type :=
| SetCurrentPrint (filename : option string)
| UnsetCurrentPrint
| ResumePrint (mute_alert : bool)
| PausePrint
| PausePrintOnFailure
| CancelPrint
| SetAlert
| ClearAlert.

Definition run_op (o : op) : M unit :=
  match o with
  | SetCurrentPrint filename => set_current_print filename
  | UnsetCurrentPrint => unset_current_print
  | ResumePrint mute_alert => resume_print mute_alert
  | PausePrint => pause_print
  | PausePrintOnFailure => pause_print_on_failure
  | CancelPrint => cancel_print
  | SetAlert => set_alert
  | ClearAlert => clear_alert
  end.

(** A printer as it is registered: the four nullable print and alert
    columns hold null. *)
Definition newly_registered (p : Printer.t) : Prop :=
  Printer.current_print_filename p = None /\
  Printer.current_print_started_at p = None /\
  Printer.current_print_alerted_at p = None /\
  Printer.alert_acknowledged_at p = None.

(** The states a printer goes through from its registration on. *)
Inductive reachable : State -> Prop :=
| reachable_new (st : State) : newly_registered (self st) -> reachable st
| reachable_step (st : State) (o : op) (st' : State) :
    reachable st -> run_op o st = inr (tt, st') -> reachable st'.

(** The four fields are null together or set together. *)
Definition fields_in_step (p : Printer.t) : Prop :=
  (Printer.current_print_filename p = None
   <-> Printer.current_print_started_at p = None) /\
  (Printer.current_print_started_at p = None
   <-> Printer.current_print_alerted_at p = None) /\
  (Printer.current_print_alerted_at p = None
   <-> Printer.alert_acknowledged_at p = None).

(** A tracked print has a start time. *)
Definition tracked_has_start (p : Printer.t) : Prop :=
  Printer.current_print_filename p <> None ->
  Printer.current_print_started_at p <> None.

(** The statuses of the command table after running a method. *)
Definition statuses_after (m : M unit) (st : State)
    : option (list PrinterCommand.status_t) :=
  match m st with
  | inr (_, st') => Some (map PrinterCommand.status (command_rows (world st')))
  | inl _ => None
  end.

(** Signed decimal numerals, a fragment of what [int] accepts. *)
Definition decimal (s : string) : option Z :=
  Z.of_int <$> NilZero.int_of_string s.

(* --------------------------------------------------------------------- *)
(** *** Concrete states                                                  *)
(* --------------------------------------------------------------------- *)

(** A printer in the middle of a print on which an alert was raised. *)
Definition alerting_printer : Printer.t :=
  {| Printer.id := 1; Printer.name := "mk3"; Printer.auth_token := "t0k3n";
     Printer.user := 5;
     Printer.current_print_filename := Some "benchy.gcode";
     Printer.current_print_started_at := Some 100;
     Printer.current_print_alerted_at := Some 200;
     Printer.alert_acknowledged_at := None;
     Printer.action_on_failure := Printer.PAUSE;
     Printer.tools_off_on_pause := true;
     Printer.bed_off_on_pause := true |}.

(** A newly registered printer that leaves both heaters on. *)
Definition idle_printer : Printer.t :=
  {| Printer.id := 2; Printer.name := "ender"; Printer.auth_token := "s3cr3t";
     Printer.user := 5;
     Printer.current_print_filename := None;
     Printer.current_print_started_at := None;
     Printer.current_print_alerted_at := None;
     Printer.alert_acknowledged_at := None;
     Printer.action_on_failure := Printer.NONE;
     Printer.tools_off_on_pause := false;
     Printer.bed_off_on_pause := false |}.

(** Telemetry as the producer writes it, and one with a damaged field. *)
Definition printing_snapshot : gmap string value :=
  <["seconds_left" := VStr "42"]> (<["state" := VStr "Printing"]> ∅).

Definition garbled_snapshot : gmap string value :=
  <["seconds_left" := VStr "soon"]> ∅.

(** Printer 1 has one PENDING pause; printer 2 has a PENDING pause of its
    own, and an older command of printer 1 was already sent. *)
Definition busy_world : World :=
  {| printer_rows := <[1 := alerting_printer]> (<[2 := idle_printer]> ∅);
     command_rows :=
       [ {| PrinterCommand.id := 7; PrinterCommand.printer := 1;
            PrinterCommand.command := payload "resume" [];
            PrinterCommand.status := PrinterCommand.SENT |};
         pending_row 8 2 (payload "pause" []);
         pending_row 9 1 (payload "pause" []) ];
     next_command_id := 10;
     db_log := [];
     status_store := <[1 := printing_snapshot]> ∅;
     clock := fun n => 1000 + Z.of_nat n;
     ticks := 0 |}.

Definition alerting_state : State := {| self := alerting_printer; world := busy_world |}.
Definition idle_state : State := {| self := idle_printer; world := busy_world |}.

(** The alerting printer with damaged telemetry and nothing queued. *)
Definition garbled_state : State :=
  {| self := alerting_printer;
     world := {| printer_rows := <[1 := alerting_printer]> ∅;
                 command_rows := [];
                 next_command_id := 1;
                 db_log := [];
                 status_store := <[1 := garbled_snapshot]> ∅;
                 clock := fun n => 1000 + Z.of_nat n;
                 ticks := 0 |} |}.

(* ===================================================================== *)
(** ** [UserManager]                                                     *)
(* ===================================================================== *)

Module UserManager.

(** The values a keyword argument can carry. *)
Inductive pyval : Type :=
| PNone
| PBool (b : bool)
| PInt (z : Z)
| PStr (s : string).

(** A [ValueError] carries its message; [Other] stands for whatever the
    framework raises while it builds and saves the row. *)
Inductive exn : Type :=
| ValueError (msg : string)
| Other (name : string).

(** [d.setdefault(k, v)]: a key that is present keeps its value. *)
Definition setdefault (k : string) (v : pyval) (d : gmap string pyval)
    : gmap string pyval :=
  match d !! k with
  | Some _ => d
  | None => <[k := v]> d
  end.

(** [x is True], for [x = d.get(k)]. *)
Definition is_True (x : option pyval) : bool :=
  match x with
  | Some (PBool true) => true
  | _ => false
  end.

Section Manager.

(** The user rows and the model instances. *)
Variables (Db User : Type).

(** [self.normalize_email] *)
Variable normalize_email : string -> string.

(** The three framework calls that end [_create_user], taken together:
    [self.model(email=email, **extra_fields)], [user.set_password(password)]
    and [user.save(using=self._db)]. *)
Variable store_user :
  string -> option string -> gmap string pyval -> Db -> exn + (User * Db).

(** [email] is a [str] or [None]; [not email] holds for [None] and for the
    empty text. *)
Definition _create_user (email : option string) (password : option string)
    (extra_fields : gmap string pyval) (db : Db) : exn + (User * Db) :=
  match email with
  | None => inl (ValueError "The given email must be set")
  | Some e =>
      if decide (e = "") then inl (ValueError "The given email must be set")
      else store_user (normalize_email e) password extra_fields db
  end.

Definition create_user (email : option string) (password : option string)
    (extra_fields : gmap string pyval) (db : Db) : exn + (User * Db) :=
  let extra_fields := setdefault "is_staff" (PBool false) extra_fields in
  let extra_fields := setdefault "is_superuser" (PBool false) extra_fields in
  _create_user email password extra_fields db.

Definition create_superuser (email : option string) (password : option string)
    (extra_fields : gmap string pyval) (db : Db) : exn + (User * Db) :=
  let extra_fields := setdefault "is_staff" (PBool true) extra_fields in
  let extra_fields := setdefault "is_superuser" (PBool true) extra_fields in
  if negb (is_True (extra_fields !! "is_staff"))
  then inl (ValueError "Superuser must have is_staff=True.")
  else if negb (is_True (extra_fields !! "is_superuser"))
  then inl (ValueError "Superuser must have is_superuser=True.")
  else _create_user email password extra_fields db.

End Manager.

Arguments _create_user {Db User} normalize_email store_user
  email password extra_fields db.
Arguments create_user {Db User} normalize_email store_user
  email password extra_fields db.
Arguments create_superuser {Db User} normalize_email store_user
  email password extra_fields db.

(** A small stand-in for the framework, for running the manager: a row
    keeps the email, the raw password and the keyword fields, and a second
    row with an email already present is refused. *)
Definition demo_row : Type := string * option string * gmap string pyval.

Definition demo_store (email : string) (password : option string)
    (extra_fields : gmap string pyval) (db : list demo_row)
    : exn + (demo_row * list demo_row) :=
  if decide (email ∈ map (fun r => fst (fst r)) db)
  then inl (Other "IntegrityError")
  else inr ((email, password, extra_fields), db ++ [(email, password, extra_fields)]).

End UserManager.

(* ===================================================================== *)
(** ** Vocabulary of the further statements                              *)
(* ===================================================================== *)

(** Operations run one after the other on the same instance. *)
Fixpoint run_ops (os : list op) : M unit :=
  match os with
  | [] => mret tt
  | o :: os' => run_op o ;; run_ops os'
  end.

(** The row of the instance holds the instance's fields. *)
Definition synced (st : State) : Prop :=
  printer_rows (world st) !! Printer.id (self st) = Some (self st).

(** The columns no method assigns. *)
Definition same_settings (p p' : Printer.t) : Prop :=
  Printer.id p' = Printer.id p /\
  Printer.name p' = Printer.name p /\
  Printer.auth_token p' = Printer.auth_token p /\
  Printer.user p' = Printer.user p /\
  Printer.action_on_failure p' = Printer.action_on_failure p /\
  Printer.tools_off_on_pause p' = Printer.tools_off_on_pause p /\
  Printer.bed_off_on_pause p' = Printer.bed_off_on_pause p.

(** How a command row may differ after an operation of printer [pid]: not
    at all, or aborted if it was a PENDING row of that printer. *)
Definition row_step (pid : Z) (c c' : PrinterCommand.t) : Prop :=
  c' = c \/
  (is_pending_of pid c /\
   c' = PrinterCommand.with_status PrinterCommand.ABORTED c).

(** PENDING rows for printer [pid] with consecutive ids from [n] on. *)
Fixpoint pending_rows (n pid : Z) (cmds : list string) : list PrinterCommand.t :=
  match cmds with
  | [] => []
  | cmd :: cmds' => pending_row n pid cmd :: pending_rows (n + 1) pid cmds'
  end.

(** The commands [pause_print_on_failure] queues for a printer. *)
Definition failure_payloads (p : Printer.t) : list string :=
  payload "pause" []
  :: (if Printer.tools_off_on_pause p then [payload "set_temps" tools_args] else [])
  ++ (if Printer.bed_off_on_pause p then [payload "set_temps" bed_args] else []).

(** The operations that only assign fields of the printer. *)
Definition field_op (o : op) : bool :=
  match o with
  | SetCurrentPrint _ | UnsetCurrentPrint | SetAlert | ClearAlert => true
  | _ => false
  end.

(** The operations that only queue commands. *)
Definition dispatch_op (o : op) : bool :=
  match o with
  | PausePrint | PausePrintOnFailure => true
  | _ => false
  end.

(** A printer that heats down the tools only. *)
Definition tools_only_printer : Printer.t :=
  {| Printer.id := 3; Printer.name := "voron"; Printer.auth_token := "k3y";
     Printer.user := 6;
     Printer.current_print_filename := Some "gear.gcode";
     Printer.current_print_started_at := Some 300;
     Printer.current_print_alerted_at := None;
     Printer.alert_acknowledged_at := None;
     Printer.action_on_failure := Printer.PAUSE;
     Printer.tools_off_on_pause := true;
     Printer.bed_off_on_pause := false |}.

Definition tools_only_state : State :=
  {| self := tools_only_printer; world := busy_world |}.

(** Telemetry of a printer that is not printing: no ["seconds_left"]. *)
Definition operational_snapshot : gmap string value :=
  <["state" := VStr "Operational"]> ∅.

Definition operational_state : State :=
  {| self := tools_only_printer;
     world := {| printer_rows := <[3 := tools_only_printer]> ∅;
                 command_rows := [];
                 next_command_id := 1;
                 db_log := [];
                 status_store := <[3 := operational_snapshot]> ∅;
                 clock := fun n => 2000 + Z.of_nat n;
                 ticks := 0 |} |}.

(* ===================================================================== *)
(** ** Proof support                                                     *)
(* ===================================================================== *)

Ltac unfold_monad :=
  unfold mbind, M_bind, mret, M_ret, raise, get_self, set_self,
    get_world, put_world in *.

Ltac unfold_db :=
  unfold queue_octoprint_command, objects_filter_update, objects_create,
    save, datetime_now in *.

Ltac run_method := unfold_db; unfold_monad; cbn.

Lemma abort_row_not_pending pid c :
  ~ is_pending_of pid c -> abort_row pid c = c.
Proof.
  intros Hn. unfold abort_row, update_row.
  destruct (decide _) as [H|H]; [exfalso; apply Hn; exact H | reflexivity].
Qed.

Lemma abort_row_pending pid c :
  is_pending_of pid c ->
  abort_row pid c = PrinterCommand.with_status PrinterCommand.ABORTED c.
Proof.
  intros Hp. unfold abort_row, update_row.
  destruct (decide _) as [H|H]; [reflexivity | exfalso; apply H; exact Hp].
Qed.

Lemma abort_row_never_pending pid c : ~ is_pending_of pid (abort_row pid c).
Proof.
  unfold abort_row, update_row.
  destruct (decide _) as [H|H]; unfold is_pending_of; cbn.
  - intros [_ Hs]. discriminate Hs.
  - exact H.
Qed.

Lemma pending_of_aborted pid rows :
  pending_of pid (map (abort_row pid) rows) = [].
Proof.
  unfold pending_of. induction rows as [|c rows IH]; [reflexivity|].
  cbn [map]. rewrite filter_cons_False by apply abort_row_never_pending.
  exact IH.
Qed.

Lemma pending_of_app pid l1 l2 :
  pending_of pid (l1 ++ l2) = pending_of pid l1 ++ pending_of pid l2.
Proof. unfold pending_of. apply filter_app. Qed.

Lemma pending_of_created pid w cmd :
  pending_of pid [created_row w pid cmd] = [created_row w pid cmd].
Proof.
  unfold pending_of. rewrite filter_cons_True; [reflexivity|].
  split; reflexivity.
Qed.

Lemma queue_abort_rows command args st :
  exists st',
    queue_octoprint_command command args true st = inr (tt, st') /\
    self st' = self st /\
    command_rows (world st') =
      map (abort_row (Printer.id (self st))) (command_rows (world st))
      ++ [created_row (world st) (Printer.id (self st)) (payload command args)].
Proof. eexists. run_method. repeat split. Qed.

Lemma queue_stack_rows command args st :
  exists st',
    queue_octoprint_command command args false st = inr (tt, st') /\
    self st' = self st /\
    command_rows (world st') =
      command_rows (world st)
      ++ [created_row (world st) (Printer.id (self st)) (payload command args)].
Proof. eexists. run_method. repeat split. Qed.

(* ===================================================================== *)
(** ** Worked runs                                                       *)
(* ===================================================================== *)

(** The table of [busy_world] holds, in order, a SENT command of printer 1,
    a PENDING one of printer 2 and a PENDING one of printer 1. *)
Example pause_print_on_alerting_printer :
  statuses_after pause_print alerting_state
  = Some [PrinterCommand.SENT; PrinterCommand.PENDING;
          PrinterCommand.ABORTED; PrinterCommand.PENDING].
Proof. vm_compute. reflexivity. Qed.

Example resume_print_on_alerting_printer :
  statuses_after (resume_print false) alerting_state
  = Some [PrinterCommand.SENT; PrinterCommand.PENDING;
          PrinterCommand.ABORTED; PrinterCommand.PENDING;
          PrinterCommand.PENDING].
Proof. vm_compute. reflexivity. Qed.

Example pause_print_on_failure_on_idle_printer :
  statuses_after pause_print_on_failure idle_state
  = Some [PrinterCommand.SENT; PrinterCommand.ABORTED;
          PrinterCommand.PENDING; PrinterCommand.PENDING].
Proof. vm_compute. reflexivity. Qed.

Example payload_pause_length : String.length (payload "pause" []) = 28%nat.
Proof. reflexivity. Qed.

Example encode_string_quotes :
  Json.encode_string "bed"
  = String Json.quote_char ("bed" +:+ Json.lit Json.quote_char).
Proof. reflexivity. Qed.

(* ===================================================================== *)
(** ** The command queue                                                 *)
(* ===================================================================== *)

(** C1. After [queue_octoprint_command] with [abort_existing = True], the
    printer has at most one PENDING command: each of its commands that was
    PENDING before the call is ABORTED afterwards, at the same place in the
    table and otherwise unchanged, and the one row the call adds, the last
    of the table, is PENDING and is the printer's only PENDING command. *)
Theorem queue_abort_existing_one_pending :
  forall (command : string) (args : list (string * Json.t)) (st : State),
    let pid := Printer.id (self st) in
    let rows := command_rows (world st) in
    let new := created_row (world st) pid (payload command args) in
    exists st' : State,
      queue_octoprint_command command args true st = inr (tt, st') /\
      (length (pending_of pid (command_rows (world st'))) <= 1)%nat /\
      (forall (i : nat) (c : PrinterCommand.t),
          rows !! i = Some c -> is_pending_of pid c ->
          command_rows (world st') !! i
          = Some (PrinterCommand.with_status PrinterCommand.ABORTED c)) /\
      length (command_rows (world st')) = S (length rows) /\
      command_rows (world st') !! length rows = Some new /\
      PrinterCommand.status new = PrinterCommand.PENDING /\
      pending_of pid (command_rows (world st')) = [new].
Proof.
  intros command args st pid rows new.
  destruct (queue_abort_rows command args st) as (st' & Hrun & _ & Hrows).
  fold pid rows new in Hrows.
  assert (Hpend : pending_of pid (command_rows (world st')) = [new]).
  { rewrite Hrows, pending_of_app, pending_of_aborted.
    apply pending_of_created. }
  exists st'. split; [exact Hrun|].
  split; [rewrite Hpend; cbn; lia|].
  split.
  { intros i c Hi Hp. rewrite Hrows.
    rewrite lookup_app_l by (rewrite length_map; eapply lookup_lt_Some, Hi).
    rewrite list_lookup_fmap, Hi. cbn.
    f_equal. apply abort_row_pending, Hp. }
  split; [rewrite Hrows, length_app, length_map; cbn; lia|].
  split.
  { rewrite Hrows.
    rewrite lookup_app_r by (rewrite length_map; lia).
    rewrite length_map, Nat.sub_diag. reflexivity. }
  split; [reflexivity | exact Hpend].
Qed.

(** C9. Whatever [abort_existing] is, [queue_octoprint_command] leaves every
    row that is SENT or ABORTED, and every row of another printer, at its
    place and unchanged; with [abort_existing = False] it leaves every row
    of the table unchanged and only appends the new one. *)
Theorem queue_frame :
  forall (command : string) (args : list (string * Json.t))
         (abort_existing : bool) (st : State),
    let pid := Printer.id (self st) in
    let rows := command_rows (world st) in
    exists st' : State,
      queue_octoprint_command command args abort_existing st = inr (tt, st') /\
      (forall (i : nat) (c : PrinterCommand.t),
          rows !! i = Some c ->
          PrinterCommand.status c = PrinterCommand.SENT \/
          PrinterCommand.status c = PrinterCommand.ABORTED \/
          PrinterCommand.printer c <> pid ->
          command_rows (world st') !! i = Some c) /\
      (abort_existing = false ->
         rows_kept rows (command_rows (world st')) /\
         command_rows (world st')
         = rows ++ [created_row (world st) pid (payload command args)]).
Proof.
  intros command args abort_existing st pid rows.
  destruct abort_existing.
  - destruct (queue_abort_rows command args st) as (st' & Hrun & _ & Hrows).
    fold pid rows in Hrows.
    exists st'. split; [exact Hrun|]. split; [|discriminate].
    intros i c Hi Hc. rewrite Hrows.
    rewrite lookup_app_l by (rewrite length_map; eapply lookup_lt_Some, Hi).
    rewrite list_lookup_fmap, Hi. cbn. f_equal.
    apply abort_row_not_pending. intros [Hp Hs].
    destruct Hc as [Hc|[Hc|Hc]]; congruence.
  - destruct (queue_stack_rows command args st) as (st' & Hrun & _ & Hrows).
    fold pid rows in Hrows.
    assert (Hkept : rows_kept rows (command_rows (world st'))).
    { intros i c Hi. rewrite Hrows. apply lookup_app_l_Some, Hi. }
    exists st'. split; [exact Hrun|]. split.
    + intros i c Hi _. apply Hkept, Hi.
    + intros _. split; [exact Hkept | exact Hrows].
Qed.

(** C3, the claim as worded fails: on a printer with a PENDING pause, the
    unmuted [resume_print] does not leave the table as it was, because its
    first call of [queue_octoprint_command] takes the default
    [abort_existing = True]. *)
Lemma resume_print_stacks_both_fails : ~ resume_print_stacks_both alerting_state.
Proof.
  intros (st' & Hrun & _ & _ & Hrows).
  vm_compute in Hrun. injection Hrun as <-.
  vm_compute in Hrows. discriminate Hrows.
Qed.

(** C3, amended. The unmuted [resume_print] sets [alert_acknowledged_at] to
    a clock reading and [current_print_alerted_at] to null, and adds exactly
    two commands, ["restore_temps"] and then ["resume"], both PENDING.  The
    first is queued with [abort_existing = True]: every command of the
    printer that was PENDING becomes ABORTED.  The second is queued with
    [abort_existing = False].  The statements sent to the database are two
    saves, one bulk abort and the two inserts, in this order. *)
Theorem resume_print_unmuted :
  forall st : State,
    let p := self st in
    let w := world st in
    let pid := Printer.id p in
    let p1 := Printer.with_alert_acknowledged_at (Some (clock w (ticks w))) p in
    let p2 := Printer.with_alert_acknowledged_at (Some (clock w (S (ticks w))))
                (Printer.with_current_print_alerted_at None p1) in
    let r1 := pending_row (next_command_id w) pid (payload "restore_temps" []) in
    let r2 := pending_row (next_command_id w + 1) pid (payload "resume" []) in
    exists st' : State,
      resume_print false st = inr (tt, st') /\
      self st' = p2 /\
      Printer.alert_acknowledged_at (self st') = Some (clock w (S (ticks w))) /\
      Printer.current_print_alerted_at (self st') = None /\
      command_rows (world st') = map (abort_row pid) (command_rows w) ++ [r1; r2] /\
      db_log (world st')
      = db_log w ++ [Save p1; Save p2;
                     UpdateStatus pid PrinterCommand.PENDING PrinterCommand.ABORTED;
                     Insert r1; Insert r2].
Proof.
  intros st p w pid p1 p2 r1 r2. eexists.
  unfold resume_print, clear_alert. run_method.
  split; [reflexivity|]. cbn.
  repeat split.
  - rewrite <- app_assoc. reflexivity.
  - rewrite <- !app_assoc. reflexivity.
Qed.

(** C5. [pause_print_on_failure] adds exactly three commands when both
    heater policies are on: ["pause"], queued with [abort_existing = True],
    then ["set_temps"] for the tools and ["set_temps"] for the bed, both
    queued with [abort_existing = False]; it adds exactly one command, the
    aborting ["pause"], when both policies are off.  The log shows the single
    bulk abort, issued before the first insert. *)
Theorem pause_print_on_failure_commands :
  forall st : State,
    let p := self st in
    let w := world st in
    let pid := Printer.id p in
    let n := next_command_id w in
    let abort := UpdateStatus pid PrinterCommand.PENDING PrinterCommand.ABORTED in
    let r_pause := pending_row n pid (payload "pause" []) in
    let r_tools := pending_row (n + 1) pid (payload "set_temps" tools_args) in
    let r_bed := pending_row (n + 1 + 1) pid (payload "set_temps" bed_args) in
    (Printer.tools_off_on_pause p = true ->
     Printer.bed_off_on_pause p = true ->
     exists st' : State,
       pause_print_on_failure st = inr (tt, st') /\
       self st' = p /\
       length (command_rows (world st')) = (length (command_rows w) + 3)%nat /\
       command_rows (world st')
       = map (abort_row pid) (command_rows w) ++ [r_pause; r_tools; r_bed] /\
       db_log (world st')
       = db_log w ++ [abort; Insert r_pause; Insert r_tools; Insert r_bed]) /\
    (Printer.tools_off_on_pause p = false ->
     Printer.bed_off_on_pause p = false ->
     exists st' : State,
       pause_print_on_failure st = inr (tt, st') /\
       self st' = p /\
       length (command_rows (world st')) = (length (command_rows w) + 1)%nat /\
       command_rows (world st') = map (abort_row pid) (command_rows w) ++ [r_pause] /\
       db_log (world st') = db_log w ++ [abort; Insert r_pause]).
Proof.
  intros st p w pid n abort r_pause r_tools r_bed.
  split; intros Ht Hb; eexists; unfold pause_print_on_failure; run_method;
    fold p; rewrite Ht; cbn; fold p; rewrite Hb; cbn.
  - split; [reflexivity|]. cbn. split; [reflexivity|].
    rewrite <- !app_assoc. cbn.
    split; [rewrite length_app, length_map; reflexivity|].
    split; reflexivity.
  - split; [reflexivity|]. cbn. split; [reflexivity|].
    rewrite <- !app_assoc. cbn.
    split; [rewrite length_app, length_map; reflexivity|].
    split; reflexivity.
Qed.

Lemma pause_print_on_failure_commands_witness :
  (exists st' : State,
      pause_print_on_failure alerting_state = inr (tt, st') /\
      length (command_rows (world st')) = 6%nat) /\
  (exists st' : State,
      pause_print_on_failure idle_state = inr (tt, st') /\
      length (command_rows (world st')) = 4%nat).
Proof.
  split.
  - destruct (proj1 (pause_print_on_failure_commands alerting_state)
                eq_refl eq_refl) as (st' & Hrun & _ & Hlen & _).
    exists st'. split; [exact Hrun | exact Hlen].
  - destruct (proj2 (pause_print_on_failure_commands idle_state)
                eq_refl eq_refl) as (st' & Hrun & _ & Hlen & _).
    exists st'. split; [exact Hrun | exact Hlen].
Defined.

Lemma cancel_print_rows st :
  exists st',
    cancel_print st = inr (tt, st') /\
    Printer.alert_acknowledged_at (self st')
    = Some (clock (world st) (ticks (world st))) /\
    command_rows (world st') =
      map (abort_row (Printer.id (self st))) (command_rows (world st))
      ++ [created_row (world st) (Printer.id (self st)) (payload "cancel" [])].
Proof. eexists. unfold cancel_print. run_method. repeat split. Qed.

(** C6. On a printer whose only PENDING command is a ["pause"],
    [cancel_print] turns that command into ABORTED, adds a PENDING
    ["cancel"], which is then the printer's only PENDING command, and sets
    [alert_acknowledged_at] to a clock reading. *)
Theorem cancel_print_supersedes_pause :
  forall (st : State) (c : PrinterCommand.t),
    let w := world st in
    let pid := Printer.id (self st) in
    let new := created_row w pid (payload "cancel" []) in
    pending_of pid (command_rows w) = [c] ->
    PrinterCommand.command c = payload "pause" [] ->
    exists st' : State,
      cancel_print st = inr (tt, st') /\
      (exists i : nat,
          command_rows w !! i = Some c /\
          command_rows (world st') !! i
          = Some (PrinterCommand.with_status PrinterCommand.ABORTED c)) /\
      command_rows (world st') !! length (command_rows w) = Some new /\
      PrinterCommand.status new = PrinterCommand.PENDING /\
      pending_of pid (command_rows (world st')) = [new] /\
      Printer.alert_acknowledged_at (self st') = Some (clock w (ticks w)) /\
      Printer.alert_acknowledged_at (self st') <> None.
Proof.
  intros st c w pid new Hpend _.
  assert (Hc : c ∈ pending_of pid (command_rows w))
    by (rewrite Hpend; apply list_elem_of_here).
  unfold pending_of in Hc. apply list_elem_of_filter in Hc.
  destruct Hc as [Hp Hin].
  apply list_elem_of_lookup in Hin. destruct Hin as [i Hi].
  destruct (cancel_print_rows st) as (st' & Hrun & Hack & Hrows).
  fold w pid new in Hack, Hrows.
  exists st'. split; [exact Hrun|].
  split.
  { exists i. split; [exact Hi|]. rewrite Hrows.
    rewrite lookup_app_l by (rewrite length_map; eapply lookup_lt_Some, Hi).
    rewrite list_lookup_fmap, Hi. cbn. f_equal.
    apply abort_row_pending, Hp. }
  split.
  { rewrite Hrows.
    rewrite lookup_app_r by (rewrite length_map; lia).
    rewrite length_map, Nat.sub_diag. reflexivity. }
  split; [reflexivity|].
  split.
  { rewrite Hrows, pending_of_app, pending_of_aborted.
    apply pending_of_created. }
  split; [exact Hack | rewrite Hack; discriminate].
Qed.

Lemma cancel_print_supersedes_pause_witness :
  exists st' : State,
    cancel_print alerting_state = inr (tt, st') /\
    command_rows (world st') !! 3%nat
    = Some (pending_row 10 1 (payload "cancel" [])) /\
    pending_of 1 (command_rows (world st')) = [pending_row 10 1 (payload "cancel" [])].
Proof.
  destruct (cancel_print_supersedes_pause alerting_state
              (pending_row 9 1 (payload "pause" [])) eq_refl eq_refl)
    as (st' & Hrun & _ & Hnew & _ & Hpend & _).
  exists st'. split; [exact Hrun|]. split; [exact Hnew | exact Hpend].
Defined.

(* ===================================================================== *)
(** ** The print and alert fields                                        *)
(* ===================================================================== *)

(** C7. [set_alert] succeeds in every state: it sets
    [current_print_alerted_at] to the clock reading and
    [alert_acknowledged_at] to null, whatever they held before, leaves the
    other fields of the printer as they were and saves the row. *)
Theorem set_alert_effect :
  forall st : State,
    let w := world st in
    let now := clock w (ticks w) in
    let p' := Printer.with_alert_acknowledged_at None
                (Printer.with_current_print_alerted_at (Some now) (self st)) in
    exists st' : State,
      set_alert st = inr (tt, st') /\
      self st' = p' /\
      Printer.current_print_alerted_at (self st') = Some now /\
      Printer.alert_acknowledged_at (self st') = None /\
      Printer.current_print_filename (self st')
      = Printer.current_print_filename (self st) /\
      Printer.current_print_started_at (self st')
      = Printer.current_print_started_at (self st) /\
      printer_rows (world st') !! Printer.id (self st) = Some p' /\
      command_rows (world st') = command_rows w.
Proof.
  intros st w now p'. eexists. unfold set_alert. run_method.
  split; [reflexivity|]. cbn. repeat split.
  apply lookup_insert_eq.
Qed.

(** C4. [set_current_print] with the filename the printer already has
    changes nothing: the printer's fields, the tables, the log of database
    statements and the clock are all as before. *)
Theorem set_current_print_same_filename :
  forall (st : State) (f : option string),
    Printer.current_print_filename (self st) = f ->
    set_current_print f st = inr (tt, st).
Proof.
  intros st f Hf. unfold set_current_print. run_method.
  destruct (decide (f <> Printer.current_print_filename (self st))) as [Hne|_].
  - exfalso. apply Hne. symmetry. exact Hf.
  - reflexivity.
Qed.

Lemma set_current_print_same_filename_witness :
  set_current_print (Some "benchy.gcode") alerting_state = inr (tt, alerting_state).
Proof. apply (set_current_print_same_filename alerting_state). reflexivity. Defined.

(** C10. On a printer that tracks a print, [set_current_print] with a null
    filename is not a stop: the filename becomes null while
    [current_print_started_at] becomes the clock reading, so the two
    disagree; and [unset_current_print] on a printer whose filename is null
    changes no field and saves nothing. *)
Theorem set_current_print_null_is_not_unset :
  forall st : State,
    let w := world st in
    (Printer.current_print_filename (self st) <> None ->
     exists st' : State,
       set_current_print None st = inr (tt, st') /\
       Printer.current_print_filename (self st') = None /\
       Printer.current_print_started_at (self st') = Some (clock w (ticks w)) /\
       ~ (Printer.current_print_filename (self st') = None
          <-> Printer.current_print_started_at (self st') = None) /\
       printer_rows (world st') !! Printer.id (self st) = Some (self st')) /\
    (Printer.current_print_filename (self st) = None ->
     unset_current_print st = inr (tt, st)).
Proof.
  intros st w. split.
  - intros Hf. eexists. unfold set_current_print. run_method.
    destruct (decide (None <> Printer.current_print_filename (self st)))
      as [_|Hn].
    + split; [reflexivity|]. cbn. repeat split.
      * intros [H _]. specialize (H eq_refl). discriminate H.
      * apply lookup_insert_eq.
    + exfalso. apply Hn. intros Heq. apply Hf. symmetry. exact Heq.
  - intros Hf. unfold unset_current_print. run_method.
    destruct (decide (Printer.current_print_filename (self st) <> None))
      as [Hne|_]; [contradiction | reflexivity].
Qed.

Lemma set_current_print_null_is_not_unset_witness :
  (exists st' : State,
      set_current_print None alerting_state = inr (tt, st') /\
      Printer.current_print_filename (self st') = None /\
      Printer.current_print_started_at (self st') = Some 1000) /\
  unset_current_print idle_state = inr (tt, idle_state).
Proof.
  split.
  - destruct (proj1 (set_current_print_null_is_not_unset alerting_state))
      as (st' & Hrun & Hf & Hs & _); [discriminate|].
    exists st'. split; [exact Hrun|]. split; [exact Hf | exact Hs].
  - apply (proj2 (set_current_print_null_is_not_unset idle_state)). reflexivity.
Defined.

Lemma run_op_total (o : op) (st : State) :
  exists st', run_op o st = inr (tt, st').
Proof.
  destruct o as [f| |mute| | | | |]; cbn [run_op].
  - unfold set_current_print. run_method.
    destruct (decide (f <> Printer.current_print_filename (self st)));
      eexists; reflexivity.
  - unfold unset_current_print. run_method.
    destruct (decide (Printer.current_print_filename (self st) <> None));
      eexists; reflexivity.
  - unfold resume_print, clear_alert. run_method.
    destruct mute; eexists; reflexivity.
  - unfold pause_print. run_method. eexists; reflexivity.
  - unfold pause_print_on_failure. run_method.
    destruct (Printer.tools_off_on_pause (self st)); cbn;
      destruct (Printer.bed_off_on_pause (self st)); eexists; reflexivity.
  - unfold cancel_print. run_method. eexists; reflexivity.
  - unfold set_alert. run_method. eexists; reflexivity.
  - unfold clear_alert. run_method. eexists; reflexivity.
Qed.

Lemma run_op_tracked_has_start (o : op) (st st' : State) :
  tracked_has_start (self st) ->
  run_op o st = inr (tt, st') ->
  tracked_has_start (self st').
Proof.
  unfold tracked_has_start. intros Hinv. revert st'.
  destruct o as [f| |mute| | | | |]; cbn [run_op].
  - unfold set_current_print. run_method.
    destruct (decide (f <> Printer.current_print_filename (self st)));
      intros st' [= <-]; cbn; [discriminate | exact Hinv].
  - unfold unset_current_print. run_method.
    destruct (decide (Printer.current_print_filename (self st) <> None));
      intros st' [= <-]; cbn; [congruence | exact Hinv].
  - unfold resume_print, clear_alert. run_method.
    destruct mute; intros st' [= <-]; exact Hinv.
  - unfold pause_print. run_method. intros st' [= <-]; exact Hinv.
  - unfold pause_print_on_failure. run_method.
    destruct (Printer.tools_off_on_pause (self st)); cbn;
      destruct (Printer.bed_off_on_pause (self st));
      intros st' [= <-]; exact Hinv.
  - unfold cancel_print. run_method. intros st' [= <-]; exact Hinv.
  - unfold set_alert. run_method. intros st' [= <-]; exact Hinv.
  - unfold clear_alert. run_method. intros st' [= <-]; exact Hinv.
Qed.

Lemma reachable_tracked_has_start (st : State) :
  reachable st -> tracked_has_start (self st).
Proof.
  induction 1 as [st (Hf & _)|st o st' _ IH Hrun].
  - intros Hne. contradiction.
  - exact (run_op_tracked_has_start o st st' IH Hrun).
Qed.

Lemma idle_state_reachable : reachable idle_state.
Proof. apply reachable_new. repeat split. Qed.

(** C2, the claim as worded fails: starting a print on a newly registered
    printer sets the filename and the start time and leaves both alert
    fields null. *)
Lemma fields_in_step_fails :
  ~ (forall (st : State) (o : op) (st' : State),
        reachable st -> run_op o st = inr (tt, st') ->
        fields_in_step (self st')).
Proof.
  intros Hall.
  destruct (run_op_total (SetCurrentPrint (Some "benchy.gcode")) idle_state)
    as [st' Hrun].
  pose proof (Hall _ _ _ idle_state_reachable Hrun) as (_ & Hsa & _).
  vm_compute in Hrun. injection Hrun as <-.
  cbn in Hsa. destruct Hsa as [_ Hsa]. specialize (Hsa eq_refl).
  discriminate Hsa.
Qed.

(** C2, amended. From every state a printer reaches after its registration
    (all four fields null then), every public operation succeeds, and in the
    state it leaves a non-null [current_print_filename] comes with a non-null
    [current_print_started_at].  [set_current_print] with a filename that is
    not null and differs from the current one sets the filename and the
    start time and leaves both alert fields null; [unset_current_print] on a
    tracked print leaves the four fields null.  The two alert fields are not
    tied to the filename. *)
Theorem print_fields_after_operation :
  forall (st : State) (o : op),
    reachable st ->
    exists st' : State,
      run_op o st = inr (tt, st') /\
      reachable st' /\
      tracked_has_start (self st') /\
      (forall f : string,
          o = SetCurrentPrint (Some f) ->
          Printer.current_print_filename (self st) <> Some f ->
          Printer.current_print_filename (self st') = Some f /\
          Printer.current_print_started_at (self st')
          = Some (clock (world st) (ticks (world st))) /\
          Printer.current_print_alerted_at (self st') = None /\
          Printer.alert_acknowledged_at (self st') = None) /\
      (o = UnsetCurrentPrint ->
       Printer.current_print_filename (self st) <> None ->
       newly_registered (self st')).
Proof.
  intros st o Hreach.
  destruct (run_op_total o st) as [st' Hrun].
  assert (Hreach' : reachable st') by (eapply reachable_step; eauto).
  exists st'. split; [exact Hrun|]. split; [exact Hreach'|].
  split; [apply reachable_tracked_has_start, Hreach'|].
  split.
  - intros f -> Hne. clear Hreach'. revert st' Hrun. cbn [run_op].
    unfold set_current_print. run_method.
    destruct (decide (Some f <> Printer.current_print_filename (self st)))
      as [_|Heq].
    + intros st' [= <-]. cbn. repeat split.
    + exfalso. apply Heq. intros E. apply Hne. symmetry. exact E.
  - intros -> Hne. clear Hreach'. revert st' Hrun. cbn [run_op].
    unfold unset_current_print. run_method.
    destruct (decide (Printer.current_print_filename (self st) <> None))
      as [_|Hn]; [|contradiction].
    intros st' [= <-]. cbn. repeat split.
Qed.

Lemma print_fields_after_operation_witness :
  exists st' : State,
    run_op (SetCurrentPrint (Some "benchy.gcode")) idle_state = inr (tt, st') /\
    Printer.current_print_filename (self st') = Some "benchy.gcode" /\
    Printer.current_print_started_at (self st') = Some 1000 /\
    Printer.current_print_alerted_at (self st') = None /\
    Printer.alert_acknowledged_at (self st') = None.
Proof.
  destruct (print_fields_after_operation idle_state
              (SetCurrentPrint (Some "benchy.gcode")) idle_state_reachable)
    as (st' & Hrun & _ & _ & Hset & _).
  exists st'. split; [exact Hrun|].
  apply (Hset "benchy.gcode"); [reflexivity | discriminate].
Defined.

(* ===================================================================== *)
(** ** The telemetry read                                                *)
(* ===================================================================== *)

Lemma dict_or_none_insert (k : string) (v : value) (d : gmap string value) :
  dict_or_none (<[k := v]> d) = Some (<[k := v]> d).
Proof.
  unfold dict_or_none. destruct (decide _) as [He|_]; [|reflexivity].
  exfalso. exact (insert_non_empty d k v He).
Qed.

(** C8. [Printer.status] on a printer with no snapshot returns the absent
    result [None] and raises nothing.  With a snapshot that has a
    ["seconds_left"] field which [int] accepts, it returns the snapshot with
    that field replaced by the integer.  With a ["seconds_left"] text that
    [int] rejects, it raises [ValueError], an outcome different from the
    absent result.  The read changes nothing in the world. *)
Theorem status_read :
  forall (int_of_str : string -> option Z) (st : State),
    let snapshot := status_store (world st) !! Printer.id (self st) in
    (snapshot = None -> status int_of_str st = inr (None, st)) /\
    (forall (d : gmap string value) (v : value) (n : Z),
        snapshot = Some d ->
        d !! "seconds_left" = Some v ->
        v = VInt n \/ (exists s : string, v = VStr s /\ int_of_str s = Some n) ->
        status int_of_str st = inr (Some (<["seconds_left" := VInt n]> d), st)) /\
    (forall (d : gmap string value) (s : string),
        snapshot = Some d ->
        d !! "seconds_left" = Some (VStr s) ->
        int_of_str s = None ->
        status int_of_str st = inl ValueError /\
        status int_of_str st <> inr (None, st)).
Proof.
  intros int_of_str st snapshot. subst snapshot.
  unfold status, printer_status_get, int. unfold_monad.
  cbn -[dict_or_none insert lookup].
  split; [|split].
  - intros ->. cbn -[dict_or_none insert lookup].
    rewrite lookup_empty. reflexivity.
  - intros d v n -> Hv Hint. cbn -[dict_or_none insert lookup]. rewrite Hv.
    destruct Hint as [->|(s & -> & Hs)].
    + rewrite dict_or_none_insert. reflexivity.
    + rewrite Hs. rewrite dict_or_none_insert. reflexivity.
  - intros d s -> Hv Hs. cbn -[dict_or_none insert lookup].
    rewrite Hv, Hs. split; [reflexivity | discriminate].
Qed.

Lemma status_read_witness :
  status decimal idle_state = inr (None, idle_state) /\
  status decimal alerting_state
  = inr (Some (<["seconds_left" := VInt 42]> printing_snapshot), alerting_state) /\
  status decimal garbled_state = inl ValueError.
Proof.
  split; [|split].
  - apply (proj1 (status_read decimal idle_state)). reflexivity.
  - apply (proj1 (proj2 (status_read decimal alerting_state))
             printing_snapshot (VStr "42") 42).
    + reflexivity.
    + reflexivity.
    + right. exists "42"%string. split; reflexivity.
  - apply (proj2 (proj2 (status_read decimal garbled_state))
             garbled_snapshot "soon"%string); reflexivity.
Defined.

(* ===================================================================== *)
(** ** Further proof support                                             *)
(* ===================================================================== *)

(** Runs an operation on the goal [forall st', run_op o st = inr (tt, st') -> _],
    one case per branch the method can take. *)
Ltac step_cases o st :=
  destruct o as [f| |mute| | | | |]; cbn [run_op field_op dispatch_op];
  [ unfold set_current_print; run_method;
    destruct (decide (f <> Printer.current_print_filename (self st)))
  | unfold unset_current_print; run_method;
    destruct (decide (Printer.current_print_filename (self st) <> None))
  | unfold resume_print, clear_alert; run_method; destruct mute
  | unfold pause_print; run_method
  | unfold pause_print_on_failure; run_method;
    destruct (Printer.tools_off_on_pause (self st)) eqn:?; cbn;
    destruct (Printer.bed_off_on_pause (self st)) eqn:?
  | unfold cancel_print; run_method
  | unfold set_alert; run_method
  | unfold clear_alert; run_method ];
  intros ? [= <-]; cbn.

Lemma run_op_settings (o : op) (st : State) :
  forall st', run_op o st = inr (tt, st') ->
    same_settings (self st) (self st') /\
    status_store (world st') = status_store (world st) /\
    clock (world st') = clock (world st) /\
    (forall j : Z, j <> Printer.id (self st) ->
       printer_rows (world st') !! j = printer_rows (world st) !! j).
Proof.
  step_cases o st; unfold same_settings; cbn; repeat split; try congruence;
    intros j Hj; rewrite ?lookup_insert_ne by congruence; reflexivity.
Qed.

Lemma run_op_saved (o : op) (st : State) :
  forall st', run_op o st = inr (tt, st') ->
    (self st' = self st /\ printer_rows (world st') = printer_rows (world st))
    \/ synced st'.
Proof.
  step_cases o st; unfold synced; cbn;
    first [ left; split; reflexivity | right; apply lookup_insert_eq ].
Qed.

Lemma run_op_rows (o : op) (st : State) :
  forall st', run_op o st = inr (tt, st') ->
    command_rows (world st') = command_rows (world st) \/
    exists new : list PrinterCommand.t,
      command_rows (world st')
      = map (abort_row (Printer.id (self st))) (command_rows (world st)) ++ new.
Proof.
  step_cases o st; rewrite <- ?app_assoc;
    first [ left; reflexivity | right; eexists; reflexivity ].
Qed.

Lemma abort_row_step (pid : Z) (c : PrinterCommand.t) :
  row_step pid c (abort_row pid c).
Proof.
  destruct (decide (is_pending_of pid c)) as [Hp|Hn].
  - right. split; [exact Hp | apply abort_row_pending, Hp].
  - left. apply abort_row_not_pending, Hn.
Qed.

Lemma row_step_trans (pid : Z) (c c' c'' : PrinterCommand.t) :
  row_step pid c c' -> row_step pid c' c'' -> row_step pid c c''.
Proof.
  intros [->|[Hp ->]] H2; [exact H2|].
  destruct H2 as [->|[[_ Hs] _]]; [right; split; [exact Hp | reflexivity]|].
  discriminate Hs.
Qed.

Lemma run_op_row_steps (o : op) (st st' : State) :
  run_op o st = inr (tt, st') ->
  (length (command_rows (world st)) <= length (command_rows (world st')))%nat /\
  forall (i : nat) (c : PrinterCommand.t),
    command_rows (world st) !! i = Some c ->
    exists c', command_rows (world st') !! i = Some c' /\
               row_step (Printer.id (self st)) c c'.
Proof.
  intros Hrun.
  destruct (run_op_rows o st st' Hrun) as [->|[new ->]].
  - split; [lia|]. intros i c Hi. exists c. split; [exact Hi | left; reflexivity].
  - split; [rewrite length_app, length_map; lia|].
    intros i c Hi. exists (abort_row (Printer.id (self st)) c). split.
    + rewrite lookup_app_l by (rewrite length_map; eapply lookup_lt_Some, Hi).
      rewrite list_lookup_fmap, Hi. reflexivity.
    + apply abort_row_step.
Qed.

(** Induction along a sequence of operations for a relation between the
    state before and the state after. *)
Lemma run_ops_invariant (P : State -> State -> Prop) :
  (forall st, P st st) ->
  (forall st1 st2 st3, P st1 st2 -> P st2 st3 -> P st1 st3) ->
  (forall o st st', run_op o st = inr (tt, st') -> P st st') ->
  forall (os : list op) (st : State),
    exists st', run_ops os st = inr (tt, st') /\ P st st'.
Proof.
  intros Hrefl Htrans Hstep os.
  induction os as [|o os IH]; intros st.
  - exists st. split; [reflexivity | apply Hrefl].
  - destruct (run_op_total o st) as [st1 H1].
    destruct (IH st1) as (st2 & H2 & HP).
    exists st2. split.
    + cbn [run_ops]. unfold mbind, M_bind. rewrite H1. exact H2.
    + eapply Htrans; [apply (Hstep _ _ _ H1) | exact HP].
Qed.

(* ===================================================================== *)
(** ** What no operation does                                            *)
(* ===================================================================== *)

(** X1. Whatever operations are run on a printer, in whatever order, they
    all succeed and leave its id, name, token, owner and failure policy as
    they were; the telemetry store is not written, and the row of every
    other printer is left as it was. *)
Theorem operations_keep_settings :
  forall (os : list op) (st : State),
    exists st' : State,
      run_ops os st = inr (tt, st') /\
      same_settings (self st) (self st') /\
      status_store (world st') = status_store (world st) /\
      (forall j : Z, j <> Printer.id (self st) ->
         printer_rows (world st') !! j = printer_rows (world st) !! j).
Proof.
  intros os st.
  apply (run_ops_invariant (fun st st' =>
    same_settings (self st) (self st') /\
    status_store (world st') = status_store (world st) /\
    (forall j : Z, j <> Printer.id (self st) ->
       printer_rows (world st') !! j = printer_rows (world st) !! j))).
  - intros s. unfold same_settings. repeat split.
  - intros s1 s2 s3 (Hs1 & Ht1 & Hr1) (Hs2 & Ht2 & Hr2).
    unfold same_settings in *.
    destruct Hs1 as (Hid & ? & ? & ? & ? & ? & ?).
    destruct Hs2 as (? & ? & ? & ? & ? & ? & ?).
    split; [repeat split; congruence|].
    split; [congruence|].
    intros j Hj. rewrite Hr2 by congruence. apply Hr1, Hj.
  - intros o s s' Hrun.
    destruct (run_op_settings o s s' Hrun) as (Hs & Ht & _ & Hr).
    split; [exact Hs|]. split; [exact Ht | exact Hr].
Qed.

(** X2. No operation returns with an unsaved change: if the printer's row
    holds the instance's fields before a sequence of operations, it holds
    them after it. *)
Theorem operations_keep_row_synced :
  forall (os : list op) (st : State),
    synced st ->
    exists st' : State, run_ops os st = inr (tt, st') /\ synced st'.
Proof.
  intros os st Hsync.
  destruct (run_ops_invariant (fun st st' => synced st -> synced st'))
    with (os := os) (st := st) as (st' & Hrun & Hkeep).
  - intros s H. exact H.
  - intros s1 s2 s3 H12 H23 H. apply H23, H12, H.
  - intros o s s' Hrun H.
    destruct (run_op_saved o s s' Hrun) as [[Hself Hrows]|Hs]; [|exact Hs].
    unfold synced in *. rewrite Hself, Hrows. exact H.
  - exists st'. split; [exact Hrun | apply Hkeep, Hsync].
Qed.

Lemma operations_keep_row_synced_witness :
  exists st' : State,
    run_ops [SetAlert; ResumePrint true; SetCurrentPrint None; UnsetCurrentPrint]
      alerting_state = inr (tt, st') /\
    synced st'.
Proof.
  apply (operations_keep_row_synced
           [SetAlert; ResumePrint true; SetCurrentPrint None; UnsetCurrentPrint]
           alerting_state).
  reflexivity.
Defined.

(** X3. The command table is a history.  Along any sequence of operations no
    row is removed, and a row keeps its id, its printer and its command
    text; its status changes only from PENDING to ABORTED, and only for rows
    of the printer operated on.  So a row that is SENT or ABORTED, or that
    belongs to another printer, is found unchanged at its place. *)
Theorem operations_keep_history :
  forall (os : list op) (st : State),
    let pid := Printer.id (self st) in
    exists st' : State,
      run_ops os st = inr (tt, st') /\
      (length (command_rows (world st)) <= length (command_rows (world st')))%nat /\
      (forall (i : nat) (c : PrinterCommand.t),
          command_rows (world st) !! i = Some c ->
          exists c' : PrinterCommand.t,
            command_rows (world st') !! i = Some c' /\ row_step pid c c') /\
      (forall (i : nat) (c : PrinterCommand.t),
          command_rows (world st) !! i = Some c ->
          PrinterCommand.status c <> PrinterCommand.PENDING \/
          PrinterCommand.printer c <> pid ->
          command_rows (world st') !! i = Some c).
Proof.
  intros os st pid.
  destruct (run_ops_invariant (fun st st' =>
    Printer.id (self st') = Printer.id (self st) /\
    (length (command_rows (world st)) <= length (command_rows (world st')))%nat /\
    forall (i : nat) (c : PrinterCommand.t),
      command_rows (world st) !! i = Some c ->
      exists c', command_rows (world st') !! i = Some c' /\
                 row_step (Printer.id (self st)) c c'))
    with (os := os) (st := st) as (st' & Hrun & _ & Hlen & Hrows).
  - intros s. split; [reflexivity|]. split; [lia|].
    intros i c Hi. exists c. split; [exact Hi | left; reflexivity].
  - intros s1 s2 s3 (Hid1 & Hl1 & Hr1) (Hid2 & Hl2 & Hr2).
    split; [congruence|]. split; [lia|].
    intros i c Hi.
    destruct (Hr1 i c Hi) as (c1 & Hi1 & Hs1).
    destruct (Hr2 i c1 Hi1) as (c2 & Hi2 & Hs2).
    exists c2. split; [exact Hi2|].
    rewrite Hid1 in Hs2. eapply row_step_trans; eassumption.
  - intros o s s' Hrun.
    destruct (run_op_settings o s s' Hrun) as ((Hid & _) & _).
    destruct (run_op_row_steps o s s' Hrun) as (Hl & Hr).
    split; [exact Hid|]. split; [exact Hl | exact Hr].
  - exists st'. split; [exact Hrun|]. split; [exact Hlen|].
    split; [exact Hrows|].
    intros i c Hi Hc.
    destruct (Hrows i c Hi) as (c' & Hi' & [->|[[Hp Hs] _]]); [exact Hi'|].
    fold pid in Hp. destruct Hc as [Hc|Hc]; contradiction.
Qed.

(** X8. [set_current_print], [unset_current_print], [set_alert] and
    [clear_alert] leave the command queue alone: no row is added or aborted
    and no id is used up; the only statement they may send is one save of
    the instance. *)
Theorem field_operations_leave_queue :
  forall (o : op) (st : State),
    field_op o = true ->
    exists st' : State,
      run_op o st = inr (tt, st') /\
      command_rows (world st') = command_rows (world st) /\
      next_command_id (world st') = next_command_id (world st) /\
      (db_log (world st') = db_log (world st) \/
       db_log (world st') = db_log (world st) ++ [Save (self st')]).
Proof.
  intros o st Hf.
  destruct (run_op_total o st) as [st' Hrun].
  exists st'. split; [exact Hrun|].
  revert st' Hrun.
  step_cases o st; try discriminate Hf;
    (split; [reflexivity|]; split; [reflexivity|]);
    first [ left; reflexivity | right; reflexivity ].
Qed.

Lemma field_operations_leave_queue_witness :
  exists st' : State,
    run_op (SetCurrentPrint (Some "gear.gcode")) alerting_state = inr (tt, st') /\
    command_rows (world st') = command_rows busy_world /\
    next_command_id (world st') = 10.
Proof.
  destruct (field_operations_leave_queue (SetCurrentPrint (Some "gear.gcode"))
              alerting_state eq_refl) as (st' & Hrun & Hrows & Hnext & _).
  exists st'. split; [exact Hrun|]. split; [exact Hrows | exact Hnext].
Defined.

(** X9. [pause_print] and [pause_print_on_failure] only queue commands: the
    instance keeps all its fields, the printer table is not written and the
    clock is not read. *)
Theorem dispatch_operations_leave_printer :
  forall (o : op) (st : State),
    dispatch_op o = true ->
    exists st' : State,
      run_op o st = inr (tt, st') /\
      self st' = self st /\
      printer_rows (world st') = printer_rows (world st) /\
      ticks (world st') = ticks (world st).
Proof.
  intros o st Hd.
  destruct (run_op_total o st) as [st' Hrun].
  exists st'. split; [exact Hrun|].
  revert st' Hrun.
  step_cases o st; try discriminate Hd; repeat split.
Qed.

Lemma dispatch_operations_leave_printer_witness :
  exists st' : State,
    run_op PausePrintOnFailure alerting_state = inr (tt, st') /\
    self st' = alerting_printer /\
    ticks (world st') = 0%nat.
Proof.
  destruct (dispatch_operations_leave_printer PausePrintOnFailure
              alerting_state eq_refl) as (st' & Hrun & Hself & _ & Hticks).
  exists st'. split; [exact Hrun|]. split; [exact Hself | exact Hticks].
Defined.

(* ===================================================================== *)
(** ** What is left PENDING                                              *)
(* ===================================================================== *)

Lemma pending_of_pending_rows (pid n : Z) (cmds : list string) :
  pending_of pid (pending_rows n pid cmds) = pending_rows n pid cmds.
Proof.
  revert n. induction cmds as [|cmd cmds IH]; intros n; [reflexivity|].
  cbn [pending_rows]. unfold pending_of in *.
  rewrite filter_cons_True by (split; reflexivity).
  rewrite IH. reflexivity.
Qed.

Lemma pending_of_after_abort (pid n : Z) (rows : list PrinterCommand.t)
    (cmds : list string) :
  pending_of pid (map (abort_row pid) rows ++ pending_rows n pid cmds)
  = pending_rows n pid cmds.
Proof.
  rewrite pending_of_app, pending_of_aborted. apply pending_of_pending_rows.
Qed.

(** X4. Whatever the two heater policies are, [pause_print_on_failure]
    appends ["pause"], then ["set_temps"] for the tools if
    [tools_off_on_pause], then ["set_temps"] for the bed if
    [bed_off_on_pause], with consecutive ids; afterwards these rows, in this
    order, are all the PENDING commands of the printer, so the stacked
    heater commands do not abort the pause or each other. *)
Theorem pause_print_on_failure_pending :
  forall st : State,
    let p := self st in
    let w := world st in
    let pid := Printer.id p in
    let new := pending_rows (next_command_id w) pid (failure_payloads p) in
    exists st' : State,
      pause_print_on_failure st = inr (tt, st') /\
      command_rows (world st') = map (abort_row pid) (command_rows w) ++ new /\
      pending_of pid (command_rows (world st')) = new /\
      next_command_id (world st') = next_command_id w + Z.of_nat (length new).
Proof.
  intros st p w pid new.
  assert (Hshape : exists st',
    pause_print_on_failure st = inr (tt, st') /\
    command_rows (world st') = map (abort_row pid) (command_rows w) ++ new /\
    next_command_id (world st') = next_command_id w + Z.of_nat (length new)).
  { subst new. unfold failure_payloads, pause_print_on_failure. run_method.
    fold p w pid.
    destruct (Printer.tools_off_on_pause p); cbn;
      destruct (Printer.bed_off_on_pause p); cbn;
      eexists; (split; [reflexivity|]); cbn; rewrite <- ?app_assoc; cbn;
      (split; [reflexivity | lia]). }
  destruct Hshape as (st' & Hrun & Hrows & Hnext).
  exists st'. split; [exact Hrun|]. split; [exact Hrows|].
  split; [|exact Hnext].
  rewrite Hrows. apply pending_of_after_abort.
Qed.

(** X5. After [resume_print], muted or not, the PENDING commands of the
    printer are exactly ["restore_temps"] and ["resume"], in this order:
    what was PENDING before is superseded, and ["resume"] does not abort
    ["restore_temps"]. *)
Theorem resume_print_pending :
  forall (mute_alert : bool) (st : State),
    let w := world st in
    let pid := Printer.id (self st) in
    exists st' : State,
      resume_print mute_alert st = inr (tt, st') /\
      pending_of pid (command_rows (world st'))
      = [pending_row (next_command_id w) pid (payload "restore_temps" []);
         pending_row (next_command_id w + 1) pid (payload "resume" [])].
Proof.
  intros mute_alert st w pid.
  assert (Hshape : exists st',
    resume_print mute_alert st = inr (tt, st') /\
    command_rows (world st')
    = map (abort_row pid) (command_rows w)
      ++ pending_rows (next_command_id w) pid
           [payload "restore_temps" []; payload "resume" []]).
  { unfold resume_print, clear_alert. run_method. fold w pid.
    destruct mute_alert; cbn; eexists; (split; [reflexivity|]); cbn;
      rewrite <- app_assoc; reflexivity. }
  destruct Hshape as (st' & Hrun & Hrows).
  exists st'. split; [exact Hrun|].
  rewrite Hrows. apply pending_of_after_abort.
Qed.

(* ===================================================================== *)
(** ** Acknowledging and clearing alerts                                 *)
(* ===================================================================== *)

(** X6. The muted [resume_print] records the acknowledgement and keeps the
    alert: [alert_acknowledged_at] becomes the clock reading,
    [current_print_alerted_at] and every other field stay as they were, the
    clock is read once and the instance is saved once, before the bulk abort
    and the two inserts. *)
Theorem resume_print_muted :
  forall st : State,
    let p := self st in
    let w := world st in
    let pid := Printer.id p in
    let p1 := Printer.with_alert_acknowledged_at (Some (clock w (ticks w))) p in
    let r1 := pending_row (next_command_id w) pid (payload "restore_temps" []) in
    let r2 := pending_row (next_command_id w + 1) pid (payload "resume" []) in
    exists st' : State,
      resume_print true st = inr (tt, st') /\
      self st' = p1 /\
      Printer.current_print_alerted_at (self st')
      = Printer.current_print_alerted_at p /\
      ticks (world st') = S (ticks w) /\
      printer_rows (world st') = <[pid := p1]> (printer_rows w) /\
      db_log (world st')
      = db_log w ++ [Save p1;
                     UpdateStatus pid PrinterCommand.PENDING PrinterCommand.ABORTED;
                     Insert r1; Insert r2].
Proof.
  intros st p w pid p1 r1 r2. eexists.
  unfold resume_print. run_method.
  split; [reflexivity|]. cbn. repeat split.
  rewrite <- !app_assoc. reflexivity.
Qed.

(** X7. [clear_alert] sets [current_print_alerted_at] to null and
    [alert_acknowledged_at] to the clock reading, in every state, also when
    no alert was raised; the filename and the start time stay as they were
    and the row is saved. *)
Theorem clear_alert_effect :
  forall st : State,
    let w := world st in
    let p' := Printer.with_alert_acknowledged_at (Some (clock w (ticks w)))
                (Printer.with_current_print_alerted_at None (self st)) in
    exists st' : State,
      clear_alert st = inr (tt, st') /\
      self st' = p' /\
      Printer.current_print_alerted_at (self st') = None /\
      Printer.alert_acknowledged_at (self st') = Some (clock w (ticks w)) /\
      Printer.current_print_filename (self st')
      = Printer.current_print_filename (self st) /\
      Printer.current_print_started_at (self st')
      = Printer.current_print_started_at (self st) /\
      printer_rows (world st') = <[Printer.id (self st) := p']> (printer_rows w) /\
      command_rows (world st') = command_rows w.
Proof.
  intros st w p'. eexists. unfold clear_alert. run_method.
  split; [reflexivity|]. cbn. repeat split.
Qed.

Lemma bind_run {A B : Type} (m : M A) (k : A -> M B) (st st1 : State) (a : A) :
  m st = inr (a, st1) -> (m ≫= k) st = k a st1.
Proof. intros H. unfold mbind, M_bind. rewrite H. reflexivity. Qed.

Lemma set_alert_run (st : State) :
  exists st1,
    set_alert st = inr (tt, st1) /\
    Printer.current_print_alerted_at (self st1)
    = Some (clock (world st) (ticks (world st))) /\
    clock (world st1) = clock (world st) /\
    ticks (world st1) = S (ticks (world st)).
Proof. eexists. unfold set_alert. run_method. repeat split. Qed.

Lemma resume_print_fields (mute_alert : bool) (st : State) :
  exists st',
    resume_print mute_alert st = inr (tt, st') /\
    (Printer.current_print_alerted_at (self st'),
     Printer.alert_acknowledged_at (self st'))
    = if mute_alert
      then (Printer.current_print_alerted_at (self st),
            Some (clock (world st) (ticks (world st))))
      else (None, Some (clock (world st) (S (ticks (world st))))).
Proof.
  unfold resume_print, clear_alert. run_method.
  destruct mute_alert; eexists; split; reflexivity.
Qed.

Lemma cancel_print_fields (st : State) :
  exists st',
    cancel_print st = inr (tt, st') /\
    (Printer.current_print_alerted_at (self st'),
     Printer.alert_acknowledged_at (self st'))
    = (Printer.current_print_alerted_at (self st),
       Some (clock (world st) (ticks (world st)))).
Proof. eexists. unfold cancel_print. run_method. split; reflexivity. Qed.

Lemma clear_alert_fields (st : State) :
  exists st',
    clear_alert st = inr (tt, st') /\
    (Printer.current_print_alerted_at (self st'),
     Printer.alert_acknowledged_at (self st'))
    = (None, Some (clock (world st) (ticks (world st)))).
Proof. eexists. unfold clear_alert. run_method. split; reflexivity. Qed.

(** X14. What acknowledging does to a raised alert depends on the method.
    After [set_alert], the muted [resume_print] and [cancel_print] keep
    [current_print_alerted_at] at the time the alert was raised and set
    [alert_acknowledged_at] to the next clock reading, so both are non-null;
    the unmuted [resume_print] and [clear_alert] set
    [current_print_alerted_at] to null and [alert_acknowledged_at] to their
    last clock reading. *)
Theorem acknowledging_a_raised_alert :
  forall st : State,
    let w := world st in
    let t := ticks w in
    let fields (st' : State) :=
      (Printer.current_print_alerted_at (self st'),
       Printer.alert_acknowledged_at (self st')) in
    (exists st' : State,
        (set_alert ;; resume_print true) st = inr (tt, st') /\
        fields st' = (Some (clock w t), Some (clock w (S t)))) /\
    (exists st' : State,
        (set_alert ;; cancel_print) st = inr (tt, st') /\
        fields st' = (Some (clock w t), Some (clock w (S t)))) /\
    (exists st' : State,
        (set_alert ;; resume_print false) st = inr (tt, st') /\
        fields st' = (None, Some (clock w (S (S t))))) /\
    (exists st' : State,
        (set_alert ;; clear_alert) st = inr (tt, st') /\
        fields st' = (None, Some (clock w (S t)))).
Proof.
  intros st w t fields. subst fields. cbv beta.
  destruct (set_alert_run st) as (st1 & Hrun1 & Ha & Hc & Ht).
  fold w t in Ha, Hc, Ht.
  split; [|split; [|split]].
  - destruct (resume_print_fields true st1) as (st' & Hrun & Hf).
    exists st'. split; [rewrite (bind_run _ _ _ _ _ Hrun1); exact Hrun|].
    rewrite Hf. cbn. rewrite Ha, Hc, Ht. reflexivity.
  - destruct (cancel_print_fields st1) as (st' & Hrun & Hf).
    exists st'. split; [rewrite (bind_run _ _ _ _ _ Hrun1); exact Hrun|].
    rewrite Hf, Ha, Hc, Ht. reflexivity.
  - destruct (resume_print_fields false st1) as (st' & Hrun & Hf).
    exists st'. split; [rewrite (bind_run _ _ _ _ _ Hrun1); exact Hrun|].
    rewrite Hf. cbn. rewrite Hc, Ht. reflexivity.
  - destruct (clear_alert_fields st1) as (st' & Hrun & Hf).
    exists st'. split; [rewrite (bind_run _ _ _ _ _ Hrun1); exact Hrun|].
    rewrite Hf, Hc, Ht. reflexivity.
Qed.

(* ===================================================================== *)
(** ** Starting and stopping a print, composed                           *)
(* ===================================================================== *)

(** X10. Starting the same print twice is starting it once, and stopping
    twice is stopping once: the second call changes nothing, whatever the
    state the first call was made in. *)
Theorem start_and_stop_are_idempotent :
  forall (f : option string) (st : State),
    (set_current_print f ;; set_current_print f) st = set_current_print f st /\
    (unset_current_print ;; unset_current_print) st = unset_current_print st.
Proof.
  intros f st. split.
  - unfold set_current_print. run_method.
    destruct (decide (f <> Printer.current_print_filename (self st)))
      as [Hne|Heq]; cbn.
    + destruct (decide (f <> f)) as [Hff|_]; [contradiction | reflexivity].
    + destruct (decide (f <> Printer.current_print_filename (self st)));
        [contradiction | reflexivity].
  - unfold unset_current_print. run_method.
    destruct (decide (Printer.current_print_filename (self st) <> None))
      as [Hne|Heq]; cbn.
    + destruct (decide (None <> None)) as [Hnn|_];
        [contradiction | reflexivity].
    + destruct (decide (Printer.current_print_filename (self st) <> None));
        [contradiction | reflexivity].
Qed.

(** X11. Starting a print under a filename and then stopping brings the
    printer back to the four null fields from every state, also when the
    start was a no-op because the filename was already the current one; the
    row is saved in that state. *)
Theorem start_then_stop_clears :
  forall (f : string) (st : State),
    exists st' : State,
      (set_current_print (Some f) ;; unset_current_print) st = inr (tt, st') /\
      newly_registered (self st') /\
      synced st'.
Proof.
  intros f st. unfold set_current_print, unset_current_print. run_method.
  destruct (decide (Some f <> Printer.current_print_filename (self st)))
    as [Hne|Heq]; cbn.
  - destruct (decide (Some f <> None)) as [_|Hn];
      [|exfalso; apply Hn; discriminate].
    eexists. split; [reflexivity|]. unfold newly_registered, synced. cbn.
    split; [repeat split|]. apply lookup_insert_eq.
  - destruct (decide (Printer.current_print_filename (self st) <> None))
      as [_|Hn].
    + eexists. split; [reflexivity|]. unfold newly_registered, synced. cbn.
      split; [repeat split|]. apply lookup_insert_eq.
    + exfalso. apply Hn. intros Hnone. apply Heq. rewrite Hnone. discriminate.
Qed.

(** X12. [unset_current_print] does not undo [set_current_print(None)]: on a
    printer that tracks a print, the null start stamps
    [current_print_started_at], and the stop that follows finds a null
    filename and leaves that start time in place. *)
Theorem stop_after_null_start_keeps_start_time :
  forall st : State,
    let w := world st in
    Printer.current_print_filename (self st) <> None ->
    exists st' : State,
      (set_current_print None ;; unset_current_print) st = inr (tt, st') /\
      Printer.current_print_filename (self st') = None /\
      Printer.current_print_started_at (self st') = Some (clock w (ticks w)) /\
      ~ newly_registered (self st').
Proof.
  intros st w Hf. unfold set_current_print, unset_current_print. run_method.
  destruct (decide (None <> Printer.current_print_filename (self st)))
    as [_|Hn]; cbn.
  - destruct (decide (None <> None)) as [Hnn|_]; [contradiction|].
    eexists. split; [reflexivity|]. cbn. repeat split.
    intros (_ & Hs & _). cbn in Hs. discriminate Hs.
  - exfalso. apply Hn. intros Heq. apply Hf. symmetry. exact Heq.
Qed.

Lemma stop_after_null_start_keeps_start_time_witness :
  exists st' : State,
    (set_current_print None ;; unset_current_print) alerting_state
    = inr (tt, st') /\
    Printer.current_print_filename (self st') = None /\
    Printer.current_print_started_at (self st') = Some 1000.
Proof.
  destruct (stop_after_null_start_keeps_start_time alerting_state)
    as (st' & Hrun & Hf & Hs & _); [discriminate|].
  exists st'. split; [exact Hrun|]. split; [exact Hf | exact Hs].
Defined.

(* ===================================================================== *)
(** ** The telemetry read, further                                       *)
(* ===================================================================== *)

(** X13. A snapshot that has fields but no ["seconds_left"] is returned as
    it is stored: [int] is not called, so nothing is raised whatever the
    other fields hold, and the world is left as it was. *)
Theorem status_without_seconds_left :
  forall (int_of_str : string -> option Z) (st : State)
         (d : gmap string value),
    status_store (world st) !! Printer.id (self st) = Some d ->
    d !! "seconds_left" = None ->
    d <> ∅ ->
    status int_of_str st = inr (Some d, st).
Proof.
  intros int_of_str st d Hd Hs Hne.
  unfold status, printer_status_get, int. unfold_monad.
  cbn -[dict_or_none insert lookup].
  rewrite Hd. cbn -[dict_or_none insert lookup]. rewrite Hs.
  unfold dict_or_none. destruct (decide (d = ∅)); [contradiction | reflexivity].
Qed.

Lemma status_without_seconds_left_witness :
  status decimal operational_state
  = inr (Some operational_snapshot, operational_state).
Proof.
  apply (status_without_seconds_left decimal operational_state
           operational_snapshot).
  - reflexivity.
  - reflexivity.
  - intros H. apply (f_equal (fun m : gmap string value => m !! "state")) in H.
    vm_compute in H. discriminate H.
Defined.

(* ===================================================================== *)
(** ** Creating users                                                    *)
(* ===================================================================== *)

Lemma setdefault_lookup (k j : string) (v : UserManager.pyval)
    (d : gmap string UserManager.pyval) :
  UserManager.setdefault k v d !! j
  = if decide (k = j) then Some (default v (d !! k)) else d !! j.
Proof.
  unfold UserManager.setdefault.
  destruct (d !! k) as [x|] eqn:Hk; cbn.
  - destruct (decide (k = j)) as [<-|_]; [exact Hk | reflexivity].
  - destruct (decide (k = j)) as [<-|Hne].
    + apply lookup_insert_eq.
    + apply lookup_insert_ne, Hne.
Qed.

Lemma flags_lookup_staff (v1 v2 : UserManager.pyval)
    (d : gmap string UserManager.pyval) :
  UserManager.setdefault "is_superuser" v2 (UserManager.setdefault "is_staff" v1 d)
    !! "is_staff"
  = Some (default v1 (d !! "is_staff")).
Proof.
  rewrite setdefault_lookup.
  destruct (decide ("is_superuser"%string = "is_staff"%string)) as [E|_];
    [discriminate E|].
  rewrite setdefault_lookup.
  destruct (decide ("is_staff"%string = "is_staff"%string));
    [reflexivity | contradiction].
Qed.

Lemma flags_lookup_superuser (v1 v2 : UserManager.pyval)
    (d : gmap string UserManager.pyval) :
  UserManager.setdefault "is_superuser" v2 (UserManager.setdefault "is_staff" v1 d)
    !! "is_superuser"
  = Some (default v2 (d !! "is_superuser")).
Proof.
  rewrite setdefault_lookup.
  destruct (decide ("is_superuser"%string = "is_superuser"%string)) as [_|N];
    [|contradiction].
  rewrite setdefault_lookup.
  destruct (decide ("is_staff"%string = "is_superuser"%string)) as [E|_];
    [discriminate E | reflexivity].
Qed.

Lemma flags_lookup_other (v1 v2 : UserManager.pyval)
    (d : gmap string UserManager.pyval) (k : string) :
  k <> "is_staff"%string -> k <> "is_superuser"%string ->
  UserManager.setdefault "is_superuser" v2 (UserManager.setdefault "is_staff" v1 d)
    !! k
  = d !! k.
Proof.
  intros Hk1 Hk2. rewrite !setdefault_lookup.
  destruct (decide ("is_superuser"%string = k)); [congruence|].
  destruct (decide ("is_staff"%string = k)); [congruence|]. reflexivity.
Qed.

Section ManagerFacts.

Variables (Db User : Type).
Variable normalize_email : string -> string.
Variable store_user :
  string -> option string -> gmap string UserManager.pyval -> Db ->
  UserManager.exn + (User * Db).

(** X15. Without an email, [None] or the empty text, [_create_user] and
    [create_user] raise [ValueError('The given email must be set')] before
    the framework is asked to build or save anything, whatever the password
    and the extra fields are. *)
Theorem create_user_needs_email :
  forall (email password : option string)
         (extra_fields : gmap string UserManager.pyval) (db : Db),
    email = None \/ email = Some ""%string ->
    UserManager._create_user normalize_email store_user email password extra_fields db
    = inl (UserManager.ValueError "The given email must be set") /\
    UserManager.create_user normalize_email store_user email password extra_fields db
    = inl (UserManager.ValueError "The given email must be set").
Proof.
  intros email password extra_fields db [->| ->];
    unfold UserManager.create_user, UserManager._create_user;
    split; reflexivity.
Qed.

(** X16. [create_superuser] checks the two flags before anything else.  An
    [is_staff] given as anything but [True] raises
    [ValueError('Superuser must have is_staff=True.')], whatever the email
    and [is_superuser] are; with [is_staff] absent or [True], an
    [is_superuser] given as anything but [True] raises
    [ValueError('Superuser must have is_superuser=True.')].  The framework is
    not asked to build or save anything. *)
Theorem create_superuser_checks_flags :
  forall (email password : option string)
         (extra_fields : gmap string UserManager.pyval) (db : Db)
         (v : UserManager.pyval),
    v <> UserManager.PBool true ->
    (extra_fields !! "is_staff" = Some v ->
     UserManager.create_superuser normalize_email store_user email password extra_fields db
     = inl (UserManager.ValueError "Superuser must have is_staff=True.")) /\
    (extra_fields !! "is_staff" = None \/
     extra_fields !! "is_staff" = Some (UserManager.PBool true) ->
     extra_fields !! "is_superuser" = Some v ->
     UserManager.create_superuser normalize_email store_user email password extra_fields db
     = inl (UserManager.ValueError "Superuser must have is_superuser=True.")).
Proof.
  intros email password extra_fields db v Hv.
  assert (Hnot : UserManager.is_True (Some v) = false).
  { destruct v as [|[|]| |]; try reflexivity. contradiction. }
  split.
  - intros Hstaff. unfold UserManager.create_superuser.
    rewrite flags_lookup_staff, Hstaff. cbn [default from_option]. unfold id.
    rewrite Hnot. reflexivity.
  - intros Hstaff Hsuper. unfold UserManager.create_superuser.
    rewrite flags_lookup_staff, flags_lookup_superuser, Hsuper.
    cbn [default from_option]. unfold id. rewrite Hnot.
    destruct Hstaff as [Hs|Hs]; rewrite Hs; reflexivity.
Qed.

(** X17. Every user [create_superuser] returns was stored with a non-empty
    email, normalised, and with [is_staff] and [is_superuser] both [True];
    the other extra fields reach the framework as the caller gave them. *)
Theorem create_superuser_result :
  forall (email password : option string)
         (extra_fields : gmap string UserManager.pyval) (db db' : Db) (u : User),
    UserManager.create_superuser normalize_email store_user email password extra_fields db = inr (u, db') ->
    exists (e : string) (stored : gmap string UserManager.pyval),
      email = Some e /\ e <> ""%string /\
      stored !! "is_staff" = Some (UserManager.PBool true) /\
      stored !! "is_superuser" = Some (UserManager.PBool true) /\
      (forall k : string, k <> "is_staff"%string -> k <> "is_superuser"%string ->
         stored !! k = extra_fields !! k) /\
      store_user (normalize_email e) password stored db = inr (u, db').
Proof.
  intros email password extra_fields db db' u.
  unfold UserManager.create_superuser.
  set (stored := UserManager.setdefault "is_superuser" (UserManager.PBool true)
                   (UserManager.setdefault "is_staff" (UserManager.PBool true)
                      extra_fields)).
  destruct (UserManager.is_True (stored !! "is_staff")) eqn:Hstaff;
    cbn [negb]; [|discriminate].
  destruct (UserManager.is_True (stored !! "is_superuser")) eqn:Hsuper;
    cbn [negb]; [|discriminate].
  unfold UserManager._create_user.
  destruct email as [e|]; [|discriminate].
  destruct (decide (e = ""%string)) as [_|Hne]; [discriminate|].
  intros Hstore. exists e, stored.
  split; [reflexivity|]. split; [exact Hne|].
  split.
  { destruct (stored !! "is_staff") as [[|[|]| |]|]; try discriminate Hstaff.
    reflexivity. }
  split.
  { destruct (stored !! "is_superuser") as [[|[|]| |]|];
      try discriminate Hsuper. reflexivity. }
  split; [|exact Hstore].
  intros k Hk1 Hk2. subst stored. apply flags_lookup_other; assumption.
Qed.

(** X18. [create_user] fills in [is_staff] and [is_superuser] as [False]
    only where the caller gave none: a flag the caller passes, [True]
    included, reaches [_create_user] as given, with no check, and so do all
    the other extra fields. *)
Theorem create_user_keeps_given_flags :
  forall (email password : option string)
         (extra_fields : gmap string UserManager.pyval) (db : Db),
    exists stored : gmap string UserManager.pyval,
      UserManager.create_user normalize_email store_user email password extra_fields db
      = UserManager._create_user normalize_email store_user email password stored db /\
      stored !! "is_staff"
      = Some (default (UserManager.PBool false) (extra_fields !! "is_staff")) /\
      stored !! "is_superuser"
      = Some (default (UserManager.PBool false) (extra_fields !! "is_superuser")) /\
      (forall k : string, k <> "is_staff"%string -> k <> "is_superuser"%string ->
         stored !! k = extra_fields !! k).
Proof.
  intros email password extra_fields db.
  eexists. split; [reflexivity|].
  split; [apply flags_lookup_staff|]. split; [apply flags_lookup_superuser|].
  intros k Hk1 Hk2. apply flags_lookup_other; assumption.
Qed.

End ManagerFacts.

Lemma create_user_needs_email_witness :
  UserManager._create_user (fun e => e) UserManager.demo_store
    (Some ""%string) (Some "hunter2"%string) ∅ []
  = inl (UserManager.ValueError "The given email must be set") /\
  UserManager.create_user (fun e => e) UserManager.demo_store
    (Some ""%string) (Some "hunter2"%string) ∅ []
  = inl (UserManager.ValueError "The given email must be set").
Proof.
  apply (create_user_needs_email _ _ (fun e => e) UserManager.demo_store).
  right. reflexivity.
Defined.

Lemma create_superuser_checks_flags_witness :
  UserManager.create_superuser (fun e => e) UserManager.demo_store
    (Some "root@example.com"%string) None
    (<["is_staff" := UserManager.PInt 1]> ∅) []
  = inl (UserManager.ValueError "Superuser must have is_staff=True.").
Proof.
  apply (proj1 (create_superuser_checks_flags _ _ (fun e => e)
                  UserManager.demo_store
                  (Some "root@example.com"%string) None
                  (<["is_staff" := UserManager.PInt 1]> ∅) []
                  (UserManager.PInt 1) ltac:(discriminate))).
  reflexivity.
Defined.

Lemma create_superuser_result_witness :
  exists (e : string) (stored : gmap string UserManager.pyval),
    Some "root@example.com"%string = Some e /\ e <> ""%string /\
    stored !! "is_staff" = Some (UserManager.PBool true) /\
    stored !! "is_superuser" = Some (UserManager.PBool true) /\
    (forall k : string, k <> "is_staff"%string -> k <> "is_superuser"%string ->
       stored !! k = (∅ : gmap string UserManager.pyval) !! k) /\
    UserManager.demo_store e None stored []
    = inr (("root@example.com"%string, None,
            <["is_superuser" := UserManager.PBool true]>
              (<["is_staff" := UserManager.PBool true]> ∅)),
           [("root@example.com"%string, None,
             <["is_superuser" := UserManager.PBool true]>
               (<["is_staff" := UserManager.PBool true]> ∅))]).
Proof.
  apply (create_superuser_result _ _ (fun e => e) UserManager.demo_store
           (Some "root@example.com"%string) None ∅ []).
  reflexivity.
Defined.
